(** * Coord: unit-aware dimensions and points of the plot coordinate system

    A shallow embedding of [logio/util/plot/Coord.py].  Numbers are IEEE 754
    binary64 values (Python's [float]), units are [None] or a string, the
    unit table is a finite map, and the exceptions the module can raise are
    carried by an error monad. *)

From Stdlib Require Import Floats.PrimFloat.
From stdpp Require Import base strings gmap.

Set Warnings "-inexact-float".

(** ** The host language: exceptions, dictionaries, float division *)

(** A unit identifier is [None] (the implied base unit) or a string. *)
Abbreviation unit_id := (option string).

Inductive exn : Type :=
| KeyError (key : unit_id)
| ZeroDivisionError
| ExceptionCoordUnitConvert (msg : string).

Inductive result (A : Type) : Type :=
| Ok (a : A)
| Raise (e : exn).

Arguments Ok {A} a.
Arguments Raise {A} e.

#[global] Instance result_ret : MRet result := fun A a => Ok a.

#[global] Instance result_bind : MBind result := fun A B k m =>
  match m with
  | Ok a => k a
  | Raise e => Raise e
  end.

(** [try: body except KeyError: handler]; any other exception passes through. *)
Definition try_except_KeyError {A : Type} (body handler : result A) : result A :=
  match body with
  | Raise (KeyError _) => handler
  | other => other
  end.

(** [d[k]] on a dictionary. *)
Definition getitem (d : gmap unit_id float) (k : unit_id) : result float :=
  match d !! k with
  | Some v => Ok v
  | None => Raise (KeyError k)
  end.

(** [x / y] on floats: a zero divisor raises, everything else is IEEE. *)
Definition truediv (x y : float) : result float :=
  if (y =? 0)%float then Raise ZeroDivisionError
  else Ok (x / y)%float.

(** ['%s' % u] for a unit identifier. *)
Definition str (u : unit_id) : string :=
  match u with
  | None => "None"
  | Some s => s
  end.

(** [needle in hay] on strings. *)
Fixpoint mentions (needle hay : string) : bool :=
  String.prefix needle hay ||
  match hay with
  | EmptyString => false
  | String _ rest => mentions needle rest
  end.

(** ** Module-level constants *)

Module Coord.

Definition BASE_UNITS : unit_id := Some "px".

Definition UNIT_MAP : gmap unit_id float :=
  <[ None      := 1.0%float ]> (
  <[ Some "px" := 1.0%float ]> (
  <[ Some "pt" := 1.0%float ]> (
  <[ Some "pc" := 12.0%float ]> (
  <[ Some "in" := 72.0%float ]> (
  <[ Some "cm" := (72.0 / 2.54)%float ]> (
  <[ Some "mm" := (72.0 / 25.4)%float ]> ∅)))))).

Definition units : gset unit_id := dom UNIT_MAP.

Definition convert (val : float) (unitFrom unitTo : unit_id) : result float :=
  if decide (unitFrom = unitTo) then Ok val
  else
    try_except_KeyError
      (sf ← getitem UNIT_MAP unitFrom;
       st ← getitem UNIT_MAP unitTo;
       truediv (val * sf)%float st)
      (if decide (unitFrom ∉ dom UNIT_MAP)
       then Raise (ExceptionCoordUnitConvert ("Unsupported units " +:+ str unitTo))
       else Raise (ExceptionCoordUnitConvert ("Unsupported units " +:+ str unitFrom))).

(** ** Dim: a number and its units *)

Module Dim.

Record t : Type := mk { value : float; units : unit_id }.

Definition scale (self : t) (factor : float) : t :=
  mk (value self * factor)%float (units self).

Definition divide (self : t) (factor : float) : result t :=
  v ← truediv (value self) factor;
  Ok (mk v (units self)).

Definition convert (self : t) (u : unit_id) : result t :=
  v ← Coord.convert (value self) (units self) u;
  Ok (mk v u).

Definition __add__ (self other : t) : result t :=
  if decide (units self = None ∧ units other ≠ None) then
    c ← Coord.convert (value self) (units self) (units other);
    Ok (mk (value other + c)%float (units other))
  else
    c ← Coord.convert (value other) (units other) (units self);
    Ok (mk (value self + c)%float (units self)).

Definition __sub__ (self other : t) : result t :=
  if decide (units self = None ∧ units other ≠ None) then
    c ← Coord.convert (value self) (units self) (units other);
    Ok (mk (c - value other)%float (units other))
  else
    c ← Coord.convert (value other) (units other) (units self);
    Ok (mk (value self - c)%float (units self)).

Definition __iadd__ (self other : t) : result t := __add__ self other.

Definition __isub__ (self other : t) : result t := __sub__ self other.

Definition __lt__ (self other : t) : result bool :=
  c ← Coord.convert (value other) (units other) (units self);
  Ok (value self <? c)%float.

Definition __le__ (self other : t) : result bool :=
  c ← Coord.convert (value other) (units other) (units self);
  Ok (value self <=? c)%float.

Definition __eq__ (self other : t) : result bool :=
  c ← Coord.convert (value other) (units other) (units self);
  Ok (value self =? c)%float.

Definition __ne__ (self other : t) : result bool :=
  c ← Coord.convert (value other) (units other) (units self);
  Ok (negb (value self =? c)%float).

Definition __gt__ (self other : t) : result bool :=
  c ← Coord.convert (value other) (units other) (units self);
  Ok (c <? value self)%float.

Definition __ge__ (self other : t) : result bool :=
  c ← Coord.convert (value other) (units other) (units self);
  Ok (c <=? value self)%float.

End Dim.

Definition dimIn (v : float) : Dim.t := Dim.mk v (Some "in").

(** ** Box, Pad, Margin: named tuples of [Dim.t] *)

Module Box.

Record t : Type := mk { width : Dim.t; depth : Dim.t }.

End Box.

Module Pad.

Record t : Type := mk { prev : Dim.t; next : Dim.t; parent : Dim.t; child : Dim.t }.

End Pad.

Module Margin.

Record t : Type := mk { left : Dim.t; right : Dim.t; top : Dim.t; bottom : Dim.t }.

End Margin.

(** ** Pt: a point, both members are [Dim.t] *)

Module Pt.

Record t : Type := mk { x : Dim.t; y : Dim.t }.

(** [self.x == other.x and self.y == other.y]: the second comparison runs
    only when the first one is true. *)
Definition __eq__ (self other : t) : result bool :=
  bx ← Dim.__eq__ (x self) (x other);
  if (bx : bool) then Dim.__eq__ (y self) (y other) else Ok false.

Definition convert (self : t) (u : unit_id) : result t :=
  nx ← Dim.convert (x self) u;
  ny ← Dim.convert (y self) u;
  Ok (mk nx ny).

Definition scale (self : t) (factor : float) : t :=
  mk (Dim.scale (x self) factor) (Dim.scale (y self) factor).

End Pt.

(** ** Helper functions for object creation *)

Definition baseUnitsDim (theLen : float) : Dim.t := Dim.mk theLen BASE_UNITS.

Definition zeroBaseUnitsDim : Dim.t := baseUnitsDim 0.0%float.

Definition zeroBaseUnitsBox : Box.t := Box.mk zeroBaseUnitsDim zeroBaseUnitsDim.

Definition zeroBaseUnitsPad : Pad.t :=
  Pad.mk zeroBaseUnitsDim zeroBaseUnitsDim zeroBaseUnitsDim zeroBaseUnitsDim.

Definition zeroBaseUnitsPt : Pt.t := Pt.mk zeroBaseUnitsDim zeroBaseUnitsDim.

Definition newPt (theP : Pt.t) (incX incY : option Dim.t) : result Pt.t :=
  newX ← match incX with
         | Some d => Dim.__iadd__ (Pt.x theP) d
         | None => Ok (Pt.x theP)
         end;
  newY ← match incY with
         | Some d => Dim.__iadd__ (Pt.y theP) d
         | None => Ok (Pt.y theP)
         end;
  Ok (Pt.mk newX newY).

Definition convertPt (theP : Pt.t) (theUnits : unit_id) : result Pt.t :=
  vx ← convert (Dim.value (Pt.x theP)) (Dim.units (Pt.x theP)) theUnits;
  vy ← convert (Dim.value (Pt.y theP)) (Dim.units (Pt.y theP)) theUnits;
  Ok (Pt.mk (Dim.mk vx theUnits) (Dim.mk vy theUnits)).

End Coord.

Import Coord.

(** ** The error monad *)

Section Monad.
Context {A B : Type}.

Lemma bind_Ok (a : A) (k : A → result B) : (Ok a ≫= k) = k a.
Proof. reflexivity. Qed.

Lemma bind_Raise (e : exn) (k : A → result B) : (Raise e ≫= k) = Raise e.
Proof. reflexivity. Qed.

Lemma bind_Ok_inv (m : result A) (k : A → result B) (b : B) :
  (m ≫= k) = Ok b → ∃ a, m = Ok a ∧ k a = Ok b.
Proof. destruct m as [a|e]; [eauto | discriminate]. Qed.
End Monad.

(** ** The unit table *)

Definition unit_entries : list (unit_id * float) :=
  [ (None, 1.0%float); (Some "px", 1.0%float); (Some "pt", 1.0%float);
    (Some "pc", 12.0%float); (Some "in", 72.0%float);
    (Some "cm", (72.0 / 2.54)%float); (Some "mm", (72.0 / 25.4)%float) ].

Lemma UNIT_MAP_unfold : UNIT_MAP = list_to_map unit_entries.
Proof. reflexivity. Qed.

Lemma unit_entries_NoDup : NoDup unit_entries.*1.
Proof. compute_done. Qed.

Lemma lookup_UNIT_MAP (k : unit_id) (s : float) :
  UNIT_MAP !! k = Some s ↔ (k, s) ∈ unit_entries.
Proof.
  rewrite UNIT_MAP_unfold. symmetry.
  apply elem_of_list_to_map, unit_entries_NoDup.
Qed.

Ltac each_entry H :=
  unfold unit_entries in H;
  repeat (apply elem_of_cons in H as [H|H]; [injection H as -> ->|]);
  [.. | by apply elem_of_nil in H].

Lemma scale_nonzero (k : unit_id) (s : float) :
  UNIT_MAP !! k = Some s → (s =? 0)%float = false.
Proof.
  intros H%lookup_UNIT_MAP. each_entry H; reflexivity.
Qed.

Lemma in_units_lookup (u : unit_id) : u ∈ units ↔ is_Some (UNIT_MAP !! u).
Proof. unfold units. apply elem_of_dom. Qed.

(** ** convert *)

Lemma convert_same (v : float) (u : unit_id) : convert v u u = Ok v.
Proof. unfold convert. by rewrite decide_True. Qed.

Lemma convert_known (v : float) (u1 u2 : unit_id) (s1 s2 : float) :
  u1 ≠ u2 → UNIT_MAP !! u1 = Some s1 → UNIT_MAP !! u2 = Some s2 →
  convert v u1 u2 = Ok (v * s1 / s2)%float.
Proof.
  intros Hne H1 H2. unfold convert, getitem.
  rewrite decide_False by done. rewrite H1, H2, !bind_Ok.
  unfold truediv. by rewrite (scale_nonzero _ _ H2).
Qed.

Lemma convert_from_absent (v : float) (u1 u2 : unit_id) :
  u1 ≠ u2 → UNIT_MAP !! u1 = None →
  convert v u1 u2 =
    Raise (ExceptionCoordUnitConvert ("Unsupported units " +:+ str u2)).
Proof.
  intros Hne H1. unfold convert, getitem.
  rewrite decide_False by done. rewrite H1, bind_Raise. simpl.
  rewrite decide_True; [done|]. by apply not_elem_of_dom.
Qed.

Lemma convert_to_absent (v : float) (u1 u2 : unit_id) (s1 : float) :
  u1 ≠ u2 → UNIT_MAP !! u1 = Some s1 → UNIT_MAP !! u2 = None →
  convert v u1 u2 =
    Raise (ExceptionCoordUnitConvert ("Unsupported units " +:+ str u1)).
Proof.
  intros Hne H1 H2. unfold convert, getitem.
  rewrite decide_False by done. rewrite H1, H2, bind_Ok, bind_Raise. simpl.
  rewrite decide_False; [done|]. intros Hn. apply Hn, elem_of_dom. eauto.
Qed.

(** [convert] never lets a [KeyError] or a [ZeroDivisionError] escape. *)
Lemma convert_raises_only_unit_errors (v : float) (u1 u2 : unit_id) (e : exn) :
  convert v u1 u2 = Raise e → ∃ msg, e = ExceptionCoordUnitConvert msg.
Proof.
  destruct (decide (u1 = u2)) as [->|Hne]; [by rewrite convert_same|].
  destruct (UNIT_MAP !! u1) as [s1|] eqn:H1.
  - destruct (UNIT_MAP !! u2) as [s2|] eqn:H2.
    + by rewrite (convert_known _ _ _ _ _ Hne H1 H2).
    + rewrite (convert_to_absent _ _ _ _ Hne H1 H2). intros [= <-]. eauto.
  - rewrite (convert_from_absent _ _ _ Hne H1). intros [= <-]. eauto.
Qed.

(** C10: for every value and every unit identifier [u], valid or not,
    [convert v u u] returns [v]: the equality test comes before any table
    lookup, so no unit error can be raised when the two units are equal,
    as in [convert(1.0, "bogus", "bogus")]. *)
Theorem convert_equal_units_never_raises (v : float) (u : unit_id) :
  convert v u u = Ok v ∧
  (∀ e, convert v u u ≠ Raise e) ∧
  UNIT_MAP !! Some "bogus" = None ∧
  convert 1.0%float (Some "bogus") (Some "bogus") = Ok 1.0%float.
Proof.
  split_and!.
  - apply convert_same.
  - intros e. by rewrite convert_same.
  - reflexivity.
  - apply convert_same.
Qed.

(** C7: for every value [v] and every valid unit [u] (the unspecified
    marker [None] included), [convert v u u] returns [v] itself: the very
    same float, no multiplication or division having been applied to it. *)
Theorem convert_identity_on_valid_units (v : float) (u : unit_id) :
  u ∈ units → convert v u u = Ok v.
Proof. intros _. apply convert_same. Qed.

Lemma convert_identity_on_valid_units_witness :
  convert 0.1%float None None = Ok 0.1%float ∧
  convert 0.1%float (Some "cm") (Some "cm") = Ok 0.1%float.
Proof.
  split; apply convert_identity_on_valid_units; apply in_units_lookup;
    vm_compute; eauto.
Defined.

(** C3: the unit table holds exactly seven entries, None -> 1.0, px -> 1.0,
    pt -> 1.0, pc -> 12.0, in -> 72.0, cm -> 72.0/2.54, mm -> 72.0/25.4, and
    between two distinct units of the table [convert v u1 u2] returns
    [v * scale u1 / scale u2]; so 1 in is 72 pt, 1 cm is 72.0/2.54 pt and
    25.4 mm is 1 in. *)
Theorem unit_table_and_linear_conversion :
  (∀ (k : unit_id) (s : float),
     UNIT_MAP !! k = Some s ↔
     (k, s) ∈ [ (None, 1.0%float); (Some "px", 1.0%float);
                (Some "pt", 1.0%float); (Some "pc", 12.0%float);
                (Some "in", 72.0%float); (Some "cm", (72.0 / 2.54)%float);
                (Some "mm", (72.0 / 25.4)%float) ]) ∧
  size UNIT_MAP = 7 ∧
  (∀ (v : float) (u1 u2 : unit_id) (s1 s2 : float),
     u1 ≠ u2 → UNIT_MAP !! u1 = Some s1 → UNIT_MAP !! u2 = Some s2 →
     convert v u1 u2 = Ok (v * s1 / s2)%float) ∧
  convert 1.0%float (Some "in") (Some "pt") = Ok 72.0%float ∧
  convert 1.0%float (Some "cm") (Some "pt") = Ok (72.0 / 2.54)%float ∧
  convert 25.4%float (Some "mm") (Some "in") = Ok 1.0%float.
Proof.
  split_and!.
  - apply lookup_UNIT_MAP.
  - rewrite UNIT_MAP_unfold, <- length_map_to_list.
    rewrite (map_to_list_to_map _ unit_entries_NoDup). reflexivity.
  - apply convert_known.
  - vm_compute. reflexivity.
  - vm_compute. reflexivity.
  - vm_compute. reflexivity.
Qed.

Lemma unit_table_and_linear_conversion_witness :
  convert 3.0%float (Some "pc") (Some "in") = Ok (3.0 * 12.0 / 72.0)%float.
Proof.
  apply (proj1 (proj2 (proj2 unit_table_and_linear_conversion))).
  - discriminate.
  - reflexivity.
  - reflexivity.
Defined.

(** C1: on [convert(1.0, "bogus", "pt")] the source unit is missing from the
    table, and the error raised carries the name of the target unit, "pt",
    which is in the table; "bogus" does not occur in the message.  The other
    way round, on [convert(1.0, "in", "bogus")], the message names "in". *)
Theorem convert_bogus_pt_error_names_pt :
  UNIT_MAP !! Some "bogus" = None ∧
  UNIT_MAP !! Some "pt" = Some 1.0%float ∧
  convert 1.0%float (Some "bogus") (Some "pt") =
    Raise (ExceptionCoordUnitConvert "Unsupported units pt") ∧
  mentions "bogus" "Unsupported units pt" = false ∧
  convert 1.0%float (Some "in") (Some "bogus") =
    Raise (ExceptionCoordUnitConvert "Unsupported units in") ∧
  mentions "bogus" "Unsupported units in" = false.
Proof.
  split_and!; [reflexivity | reflexivity | | reflexivity | | reflexivity].
  - by rewrite convert_from_absent.
  - by rewrite (convert_to_absent _ _ _ 72.0%float).
Qed.

(** ** Dim arithmetic *)

(** The units the specification gives to a sum or a difference: those of the
    right operand when the left one is unspecified and the right one is not,
    those of the left operand in every other case. *)
Definition resolved_units (a b : Dim.t) : unit_id :=
  match Dim.units a, Dim.units b with
  | None, Some u => Some u
  | _, _ => Dim.units a
  end.

Lemma Dim_add_left_unspecified (a b : Dim.t) :
  Dim.units a = None → Dim.units b ≠ None →
  Dim.__add__ a b =
    (c ← convert (Dim.value a) (Dim.units a) (Dim.units b);
     Ok (Dim.mk (Dim.value b + c)%float (Dim.units b))) ∧
  Dim.__sub__ a b =
    (c ← convert (Dim.value a) (Dim.units a) (Dim.units b);
     Ok (Dim.mk (c - Dim.value b)%float (Dim.units b))).
Proof.
  intros Ha Hb. unfold Dim.__add__, Dim.__sub__.
  rewrite !decide_True by done. split; reflexivity.
Qed.

Lemma Dim_add_otherwise (a b : Dim.t) :
  ¬ (Dim.units a = None ∧ Dim.units b ≠ None) →
  Dim.__add__ a b =
    (c ← convert (Dim.value b) (Dim.units b) (Dim.units a);
     Ok (Dim.mk (Dim.value a + c)%float (Dim.units a))) ∧
  Dim.__sub__ a b =
    (c ← convert (Dim.value b) (Dim.units b) (Dim.units a);
     Ok (Dim.mk (Dim.value a - c)%float (Dim.units a))).
Proof.
  intros Hn. unfold Dim.__add__, Dim.__sub__.
  rewrite !decide_False by done. split; reflexivity.
Qed.

Lemma Dim_add_units (a b r : Dim.t) :
  Dim.__add__ a b = Ok r ∨ Dim.__sub__ a b = Ok r →
  Dim.units r = resolved_units a b.
Proof.
  unfold resolved_units.
  destruct (decide (Dim.units a = None ∧ Dim.units b ≠ None)) as [[Ha Hb]|Hn].
  - destruct (Dim_add_left_unspecified a b Ha Hb) as [-> ->].
    rewrite Ha. destruct (Dim.units b) as [u|] eqn:Eb; [|done].
    intros [H|H]; apply bind_Ok_inv in H as (c & _ & [= <-]); done.
  - destruct (Dim_add_otherwise a b Hn) as [-> ->].
    assert (Dim.units a = match Dim.units a, Dim.units b with
                          | None, Some u => Some u
                          | _, _ => Dim.units a
                          end) as <-.
    { destruct (Dim.units a) eqn:Ea, (Dim.units b) eqn:Eb; try done.
      destruct Hn. done. }
    intros [H|H]; apply bind_Ok_inv in H as (c & _ & [= <-]); done.
Qed.

(** C2: in [a + b] and [a - b], when [a] has unspecified units and [b] has
    not, [a]'s value is converted into [b]'s units and the result carries
    [b]'s units; in every other case (both unspecified included, where the
    result stays unspecified) [b]'s value is converted into [a]'s units and
    the result carries [a]'s units.  Hence [Dim(5, None) + Dim(1, "in")] and
    [Dim(1, "in") + Dim(5, None)] both equal [Dim(1 + 5/72.0, "in")]. *)
Theorem add_sub_unit_resolution (a b : Dim.t) :
  (Dim.units a = None → Dim.units b ≠ None →
     Dim.__add__ a b =
       (c ← convert (Dim.value a) (Dim.units a) (Dim.units b);
        Ok (Dim.mk (Dim.value b + c)%float (Dim.units b))) ∧
     Dim.__sub__ a b =
       (c ← convert (Dim.value a) (Dim.units a) (Dim.units b);
        Ok (Dim.mk (c - Dim.value b)%float (Dim.units b)))) ∧
  (∀ (u : string) (s : float),
     Dim.units a = None → Dim.units b = Some u → UNIT_MAP !! Some u = Some s →
     Dim.__add__ a b =
       Ok (Dim.mk (Dim.value b + Dim.value a * 1.0 / s)%float (Some u)) ∧
     Dim.__sub__ a b =
       Ok (Dim.mk (Dim.value a * 1.0 / s - Dim.value b)%float (Some u))) ∧
  (¬ (Dim.units a = None ∧ Dim.units b ≠ None) →
     Dim.__add__ a b =
       (c ← convert (Dim.value b) (Dim.units b) (Dim.units a);
        Ok (Dim.mk (Dim.value a + c)%float (Dim.units a))) ∧
     Dim.__sub__ a b =
       (c ← convert (Dim.value b) (Dim.units b) (Dim.units a);
        Ok (Dim.mk (Dim.value a - c)%float (Dim.units a)))) ∧
  (Dim.units a = None → Dim.units b = None →
     Dim.__add__ a b = Ok (Dim.mk (Dim.value a + Dim.value b)%float None) ∧
     Dim.__sub__ a b = Ok (Dim.mk (Dim.value a - Dim.value b)%float None)) ∧
  (∀ r : Dim.t, Dim.__add__ a b = Ok r ∨ Dim.__sub__ a b = Ok r →
     Dim.units r = resolved_units a b) ∧
  (r ← Dim.__add__ (Dim.mk 5 None) (Dim.mk 1 (Some "in"));
   Dim.__eq__ r (Dim.mk (1 + 5 / 72.0) (Some "in"))) = Ok true ∧
  (r ← Dim.__add__ (Dim.mk 1 (Some "in")) (Dim.mk 5 None);
   Dim.__eq__ r (Dim.mk (1 + 5 / 72.0) (Some "in"))) = Ok true ∧
  Dim.__add__ (Dim.mk 5 None) (Dim.mk 1 (Some "in")) =
    Ok (Dim.mk (1 + 5 / 72.0) (Some "in")) ∧
  Dim.__add__ (Dim.mk 1 (Some "in")) (Dim.mk 5 None) =
    Ok (Dim.mk (1 + 5 / 72.0) (Some "in")).
Proof.
  split_and!.
  - apply Dim_add_left_unspecified.
  - intros u s Ha Hb Hs.
    destruct (Dim_add_left_unspecified a b) as [-> ->]; [done|by rewrite Hb|].
    rewrite Ha, Hb.
    rewrite (convert_known _ None (Some u) 1.0%float s) by done.
    done.
  - apply Dim_add_otherwise.
  - intros Ha Hb.
    destruct (Dim_add_otherwise a b) as [-> ->]; [rewrite Hb; tauto|].
    by rewrite Ha, Hb, convert_same.
  - apply Dim_add_units.
  - vm_compute. reflexivity.
  - vm_compute. reflexivity.
  - vm_compute. reflexivity.
  - vm_compute. reflexivity.
Qed.

Lemma add_sub_unit_resolution_witness :
  Dim.__add__ (Dim.mk 5 None) (Dim.mk 1 (Some "in")) =
    Ok (Dim.mk (1 + 5 * 1.0 / 72.0)%float (Some "in")) ∧
  Dim.__sub__ (Dim.mk 1 (Some "in")) (Dim.mk 36 (Some "pt")) =
    (c ← convert 36 (Some "pt") (Some "in");
     Ok (Dim.mk (1 - c)%float (Some "in"))).
Proof.
  split.
  - apply (proj1 (proj2
      (add_sub_unit_resolution (Dim.mk 5 None) (Dim.mk 1 (Some "in"))))
      "in"%string 72.0%float); reflexivity.
  - apply (proj1 (proj2 (proj2
      (add_sub_unit_resolution (Dim.mk 1 (Some "in"))
                               (Dim.mk 36 (Some "pt")))))).
    simpl. intros [H _]. discriminate H.
Defined.

(** ** Dim comparisons *)

(** The specification's reading of a comparison [a op b]: convert [b]'s
    value into [a]'s units, then compare [a]'s value, as it is, with it. *)
Definition compare_after_conversion
    (cmp : float → float → bool) (a b : Dim.t) : result bool :=
  match convert (Dim.value b) (Dim.units b) (Dim.units a) with
  | Ok c => Ok (cmp (Dim.value a) c)
  | Raise e => Raise e
  end.

Definition float_lt (x y : float) : bool := (x <? y)%float.
Definition float_le (x y : float) : bool := (x <=? y)%float.
Definition float_eq (x y : float) : bool := (x =? y)%float.
Definition float_ne (x y : float) : bool := negb (x =? y)%float.
Definition float_gt (x y : float) : bool := (y <? x)%float.
Definition float_ge (x y : float) : bool := (y <=? x)%float.

Ltac by_cases_on_convert :=
  unfold compare_after_conversion;
  match goal with
  | |- context [convert ?v ?u1 ?u2] => destruct (convert v u1 u2)
  end; reflexivity.

Lemma Dim_comparisons_spec (a b : Dim.t) :
  Dim.__lt__ a b = compare_after_conversion float_lt a b ∧
  Dim.__le__ a b = compare_after_conversion float_le a b ∧
  Dim.__eq__ a b = compare_after_conversion float_eq a b ∧
  Dim.__ne__ a b = compare_after_conversion float_ne a b ∧
  Dim.__gt__ a b = compare_after_conversion float_gt a b ∧
  Dim.__ge__ a b = compare_after_conversion float_ge a b.
Proof.
  unfold Dim.__lt__, Dim.__le__, Dim.__eq__, Dim.__ne__, Dim.__gt__,
    Dim.__ge__.
  split_and!; by_cases_on_convert.
Qed.

(** C4: each of [<], [<=], [==], [!=], [>], [>=] on [a] and [b] converts
    [b]'s value into [a]'s units and compares [a]'s own value with the
    result; with both units in the table the right-hand number is
    [b.value * scale b.units / scale a.units] (or [b.value] itself when the
    units are equal), and a failed conversion is the outcome of the
    comparison.  So [Dim(1, "in") > Dim(71, "pt")] and
    [Dim(1, "in") == Dim(72, "pt")] are true. *)
Theorem comparisons_convert_right_operand (a b : Dim.t) :
  (Dim.__lt__ a b = compare_after_conversion float_lt a b ∧
   Dim.__le__ a b = compare_after_conversion float_le a b ∧
   Dim.__eq__ a b = compare_after_conversion float_eq a b ∧
   Dim.__ne__ a b = compare_after_conversion float_ne a b ∧
   Dim.__gt__ a b = compare_after_conversion float_gt a b ∧
   Dim.__ge__ a b = compare_after_conversion float_ge a b) ∧
  (∀ sa sb : float,
     Dim.units b ≠ Dim.units a →
     UNIT_MAP !! Dim.units a = Some sa → UNIT_MAP !! Dim.units b = Some sb →
     Dim.__lt__ a b = Ok (Dim.value a <? Dim.value b * sb / sa)%float ∧
     Dim.__le__ a b = Ok (Dim.value a <=? Dim.value b * sb / sa)%float ∧
     Dim.__eq__ a b = Ok (Dim.value a =? Dim.value b * sb / sa)%float ∧
     Dim.__ne__ a b = Ok (negb (Dim.value a =? Dim.value b * sb / sa)%float) ∧
     Dim.__gt__ a b = Ok (Dim.value b * sb / sa <? Dim.value a)%float ∧
     Dim.__ge__ a b = Ok (Dim.value b * sb / sa <=? Dim.value a)%float) ∧
  (Dim.units b = Dim.units a →
     Dim.__lt__ a b = Ok (Dim.value a <? Dim.value b)%float ∧
     Dim.__le__ a b = Ok (Dim.value a <=? Dim.value b)%float ∧
     Dim.__eq__ a b = Ok (Dim.value a =? Dim.value b)%float ∧
     Dim.__ne__ a b = Ok (negb (Dim.value a =? Dim.value b)%float) ∧
     Dim.__gt__ a b = Ok (Dim.value b <? Dim.value a)%float ∧
     Dim.__ge__ a b = Ok (Dim.value b <=? Dim.value a)%float) ∧
  (∀ e : exn,
     convert (Dim.value b) (Dim.units b) (Dim.units a) = Raise e →
     Dim.__lt__ a b = Raise e ∧ Dim.__le__ a b = Raise e ∧
     Dim.__eq__ a b = Raise e ∧ Dim.__ne__ a b = Raise e ∧
     Dim.__gt__ a b = Raise e ∧ Dim.__ge__ a b = Raise e) ∧
  Dim.__gt__ (Dim.mk 1 (Some "in")) (Dim.mk 71 (Some "pt")) = Ok true ∧
  Dim.__eq__ (Dim.mk 1 (Some "in")) (Dim.mk 72 (Some "pt")) = Ok true.
Proof.
  split_and!; [| | | | | | | | | vm_compute; reflexivity ..];
    try apply Dim_comparisons_spec.
  - intros sa sb Hne Ha Hb.
    destruct (Dim_comparisons_spec a b) as (-> & -> & -> & -> & -> & ->).
    unfold compare_after_conversion.
    rewrite (convert_known _ _ _ _ _ Hne Hb Ha). done.
  - intros Heq.
    destruct (Dim_comparisons_spec a b) as (-> & -> & -> & -> & -> & ->).
    unfold compare_after_conversion.
    rewrite Heq, convert_same. done.
  - intros e He.
    destruct (Dim_comparisons_spec a b) as (-> & -> & -> & -> & -> & ->).
    unfold compare_after_conversion. rewrite He. done.
Qed.

Lemma comparisons_convert_right_operand_witness :
  Dim.__gt__ (Dim.mk 1 (Some "in")) (Dim.mk 71 (Some "pt")) =
    Ok (71 * 1.0 / 72.0 <? 1)%float ∧
  Dim.__lt__ (Dim.mk 1 (Some "in")) (Dim.mk 1 (Some "bogus")) =
    Raise (ExceptionCoordUnitConvert "Unsupported units in").
Proof.
  split.
  - apply (proj1 (proj2
      (comparisons_convert_right_operand
         (Dim.mk 1 (Some "in")) (Dim.mk 71 (Some "pt")))) 72.0%float 1.0%float).
    + discriminate.
    + reflexivity.
    + reflexivity.
  - apply (proj1 (proj2 (proj2 (proj2
      (comparisons_convert_right_operand
         (Dim.mk 1 (Some "in")) (Dim.mk 1 (Some "bogus"))))))).
    vm_compute. reflexivity.
Defined.

(** ** Dim.divide *)

Lemma Dim_divide_zero (d : Dim.t) (factor : float) :
  (factor =? 0)%float = true → Dim.divide d factor = Raise ZeroDivisionError.
Proof. intros H. unfold Dim.divide, truediv. by rewrite H. Qed.

Lemma Dim_divide_nonzero (d : Dim.t) (factor : float) :
  (factor =? 0)%float = false →
  Dim.divide d factor = Ok (Dim.mk (Dim.value d / factor)%float (Dim.units d)).
Proof. intros H. unfold Dim.divide, truediv. by rewrite H. Qed.

(** C5, as the specification states it, fails: dividing [Dim(1.0, "in")] by
    zero yields no [Dim] at all, the division raises [ZeroDivisionError]. *)
Lemma Dim_divide_by_zero_raises :
  Dim.divide (Dim.mk 1.0 (Some "in")) 0 = Raise ZeroDivisionError ∧
  ¬ (∃ r : Dim.t, Dim.divide (Dim.mk 1.0 (Some "in")) 0 = Ok r).
Proof.
  split; [reflexivity|]. intros [r H]. vm_compute in H. discriminate H.
Qed.

(** C5, amended: [divide] has no guard of its own for a zero factor, so the
    outcome is that of the float division: a factor equal to zero (either
    signed zero) raises [ZeroDivisionError], and any other factor (a NaN
    included) gives [Dim(d.value / factor, d.units)], units unchanged. *)
Theorem Dim_divide_follows_float_division (d : Dim.t) (factor : float) :
  ((factor =? 0)%float = true →
     Dim.divide d factor = Raise ZeroDivisionError) ∧
  ((factor =? 0)%float = false →
     Dim.divide d factor =
       Ok (Dim.mk (Dim.value d / factor)%float (Dim.units d))).
Proof. split; [apply Dim_divide_zero | apply Dim_divide_nonzero]. Qed.

Lemma Dim_divide_follows_float_division_witness :
  Dim.divide (Dim.mk 3.0 (Some "cm")) (-0.0) = Raise ZeroDivisionError ∧
  Dim.divide (Dim.mk 3.0 (Some "cm")) 2.0 =
    Ok (Dim.mk (3.0 / 2.0)%float (Some "cm")) ∧
  Dim.divide (Dim.mk 3.0 (Some "cm")) nan =
    Ok (Dim.mk (3.0 / nan)%float (Some "cm")).
Proof.
  split_and!.
  - apply (proj1 (Dim_divide_follows_float_division
                    (Dim.mk 3.0 (Some "cm")) (-0.0)%float)).
    reflexivity.
  - apply (proj2 (Dim_divide_follows_float_division
                    (Dim.mk 3.0 (Some "cm")) 2.0%float)).
    reflexivity.
  - apply (proj2 (Dim_divide_follows_float_division
                    (Dim.mk 3.0 (Some "cm")) nan)).
    reflexivity.
Defined.

(** ** Points *)

(** C6: both fields of the zero point carry [BASE_UNITS] and compare equal
    to [Dim(0.0, BASE_UNITS)]; moving the zero point by [Dim(5, "in")] along
    x gives an x that keeps the base units (they are not [None], so the left
    operand's units win), holds 5 in converted, 360.0, and compares equal
    to [Dim(360.0, "pt")]. *)
Theorem zero_point_and_translation :
  Dim.units (Pt.x zeroBaseUnitsPt) = BASE_UNITS ∧
  Dim.units (Pt.y zeroBaseUnitsPt) = BASE_UNITS ∧
  BASE_UNITS ≠ None ∧
  Dim.__eq__ (Pt.x zeroBaseUnitsPt) (Dim.mk 0.0 BASE_UNITS) = Ok true ∧
  Dim.__eq__ (Pt.y zeroBaseUnitsPt) (Dim.mk 0.0 BASE_UNITS) = Ok true ∧
  Dim.__eq__ (Pt.x zeroBaseUnitsPt) (Pt.y zeroBaseUnitsPt) = Ok true ∧
  Dim.__eq__ (Pt.x zeroBaseUnitsPt) (Dim.mk 0.0 (Some "pt")) = Ok true ∧
  newPt zeroBaseUnitsPt (Some (Dim.mk 5 (Some "in"))) None =
    Ok (Pt.mk (Dim.mk 360.0 BASE_UNITS) (Dim.mk 0.0 BASE_UNITS)) ∧
  (p ← newPt zeroBaseUnitsPt (Some (Dim.mk 5 (Some "in"))) None;
   Dim.__eq__ (Pt.x p) (Dim.mk 360.0 (Some "pt"))) = Ok true.
Proof.
  split_and!; try reflexivity; try discriminate.
Qed.

(** C8: [convertPt p u] and [p.convert(u)] are the same computation: the
    same point when both conversions succeed, with x and y obtained from
    [convert] and carrying [u], and the same exception otherwise. *)
Theorem convertPt_agrees_with_Pt_convert (p : Pt.t) (u : unit_id) :
  convertPt p u = Pt.convert p u ∧
  (∀ r : Pt.t, convertPt p u = Ok r →
     convert (Dim.value (Pt.x p)) (Dim.units (Pt.x p)) u
       = Ok (Dim.value (Pt.x r)) ∧
     convert (Dim.value (Pt.y p)) (Dim.units (Pt.y p)) u
       = Ok (Dim.value (Pt.y r)) ∧
     Dim.units (Pt.x r) = u ∧ Dim.units (Pt.y r) = u) ∧
  (∀ e : exn, convertPt p u = Raise e ↔ Pt.convert p u = Raise e).
Proof.
  assert (convertPt p u = Pt.convert p u) as Heq.
  { unfold convertPt, Pt.convert, Dim.convert.
    destruct (convert (Dim.value (Pt.x p)) _ u); [|reflexivity].
    destruct (convert (Dim.value (Pt.y p)) _ u); reflexivity. }
  split_and!; [done| |by rewrite Heq].
  intros r. unfold convertPt.
  intros (vx & -> & H)%bind_Ok_inv.
  apply bind_Ok_inv in H as (vy & -> & [= <-]). done.
Qed.

Lemma convertPt_agrees_with_Pt_convert_witness :
  convert 1 (Some "in") (Some "pt") = Ok 72.0%float ∧
  convert 2 (Some "pc") (Some "pt") = Ok 24.0%float ∧
  Some "pt" = Some "pt" ∧ Some "pt" = Some "pt".
Proof.
  apply (proj1 (proj2
    (convertPt_agrees_with_Pt_convert
       (Pt.mk (Dim.mk 1 (Some "in")) (Dim.mk 2 (Some "pc"))) (Some "pt")))
    (Pt.mk (Dim.mk 72.0 (Some "pt")) (Dim.mk 24.0 (Some "pt")))).
  reflexivity.
Defined.

(** C9: [p.convert(u)] converts x and y each on its own, x first.  When x's
    conversion raises, that exception is the result whatever y is (y's
    conversion has no part in the outcome, even where it would raise
    something else); when x converts and y's conversion raises, y's
    exception is the result; when both convert, the result is the point
    made of the two converted fields, each computed by [convert] from its
    own value and units and carrying [u]. *)
Theorem Pt_convert_fails_on_x_first (p : Pt.t) (u : unit_id) :
  (∀ e : exn,
     Dim.convert (Pt.x p) u = Raise e →
     Pt.convert p u = Raise e ∧
     (∀ y' : Dim.t, Pt.convert (Pt.mk (Pt.x p) y') u = Raise e)) ∧
  (∀ (nx : Dim.t) (e : exn),
     Dim.convert (Pt.x p) u = Ok nx → Dim.convert (Pt.y p) u = Raise e →
     Pt.convert p u = Raise e) ∧
  (∀ nx ny : Dim.t,
     Dim.convert (Pt.x p) u = Ok nx → Dim.convert (Pt.y p) u = Ok ny →
     Pt.convert p u = Ok (Pt.mk nx ny)) ∧
  (∀ r : Pt.t,
     Pt.convert p u = Ok r →
     convert (Dim.value (Pt.x p)) (Dim.units (Pt.x p)) u
       = Ok (Dim.value (Pt.x r)) ∧
     convert (Dim.value (Pt.y p)) (Dim.units (Pt.y p)) u
       = Ok (Dim.value (Pt.y r)) ∧
     Dim.units (Pt.x r) = u ∧ Dim.units (Pt.y r) = u) ∧
  (∀ e : exn,
     Pt.convert p u = Raise e →
     Dim.convert (Pt.x p) u = Raise e ∨
     ((∃ nx, Dim.convert (Pt.x p) u = Ok nx) ∧
      Dim.convert (Pt.y p) u = Raise e)).
Proof.
  unfold Pt.convert. split_and!.
  - intros e Hx. simpl. rewrite Hx. done.
  - intros nx e Hx Hy. by rewrite Hx, bind_Ok, Hy.
  - intros nx ny Hx Hy. by rewrite Hx, bind_Ok, Hy.
  - intros r (nx & Hx & H)%bind_Ok_inv.
    apply bind_Ok_inv in H as (ny & Hy & [= <-]).
    unfold Dim.convert in Hx, Hy.
    apply bind_Ok_inv in Hx as (cx & -> & [= <-]).
    apply bind_Ok_inv in Hy as (cy & -> & [= <-]). done.
  - intros e. destruct (Dim.convert (Pt.x p) u) as [nx|ex].
    + rewrite bind_Ok. destruct (Dim.convert (Pt.y p) u) as [ny|ey].
      * discriminate.
      * rewrite bind_Raise. intros [= <-]. right. eauto.
    + rewrite bind_Raise. intros [= <-]. by left.
Qed.

Lemma Pt_convert_fails_on_x_first_witness :
  (Dim.convert (Dim.mk 2 (Some "cm")) (Some "bogus") =
     Raise (ExceptionCoordUnitConvert "Unsupported units cm") ∧
   Pt.convert (Pt.mk (Dim.mk 1 (Some "in")) (Dim.mk 2 (Some "cm")))
              (Some "bogus") =
     Raise (ExceptionCoordUnitConvert "Unsupported units in") ∧
   (∀ y' : Dim.t,
      Pt.convert (Pt.mk (Dim.mk 1 (Some "in")) y') (Some "bogus") =
        Raise (ExceptionCoordUnitConvert "Unsupported units in"))) ∧
  Pt.convert (Pt.mk (Dim.mk 1 (Some "in")) (Dim.mk 2 (Some "bogus")))
             (Some "in") =
    Raise (ExceptionCoordUnitConvert "Unsupported units in") ∧
  Pt.convert (Pt.mk (Dim.mk 1 (Some "in")) (Dim.mk 2 (Some "pc")))
             (Some "pt") =
    Ok (Pt.mk (Dim.mk 72.0 (Some "pt")) (Dim.mk 24.0 (Some "pt"))).
Proof.
  split; [|split].
  - split; [reflexivity|].
    apply (proj1 (Pt_convert_fails_on_x_first
             (Pt.mk (Dim.mk 1 (Some "in")) (Dim.mk 2 (Some "cm")))
             (Some "bogus"))).
    reflexivity.
  - apply (proj1 (proj2 (Pt_convert_fails_on_x_first
             (Pt.mk (Dim.mk 1 (Some "in")) (Dim.mk 2 (Some "bogus")))
             (Some "in")))
           (Dim.mk 1 (Some "in"))); reflexivity.
  - apply (proj1 (proj2 (proj2 (Pt_convert_fails_on_x_first
             (Pt.mk (Dim.mk 1 (Some "in")) (Dim.mk 2 (Some "pc")))
             (Some "pt"))))); reflexivity.
Defined.

(** ** Which conversions succeed *)

Definition succeeds {A : Type} (m : result A) : Prop := ∃ a, m = Ok a.

Definition fails {A : Type} (m : result A) : Prop := ∃ e, m = Raise e.

(** Two units between which [convert] has a result. *)
Definition convertible (u1 u2 : unit_id) : Prop :=
  u1 = u2 ∨ (u1 ∈ units ∧ u2 ∈ units).

Lemma succeeds_or_fails {A : Type} (m : result A) : succeeds m ↔ ¬ fails m.
Proof.
  unfold succeeds, fails. destruct m as [a|e]; split.
  - intros _ [e' H]. discriminate H.
  - eauto.
  - intros [a H]. discriminate H.
  - intros H. destruct H. eauto.
Qed.

Lemma not_iff_compat_rev_succeeds {A B : Type} (m : result A) (n : result B) :
  (succeeds m ↔ succeeds n) → (fails m ↔ fails n).
Proof.
  unfold succeeds, fails. intros H.
  destruct m as [a|e], n as [b|e'].
  - split; intros [? ?]; discriminate.
  - exfalso. destruct (proj1 H) as [? ?]; [eauto|discriminate].
  - exfalso. destruct (proj2 H) as [? ?]; [eauto|discriminate].
  - split; eauto.
Qed.

Lemma succeeds_bind {A B : Type} (m : result A) (k : A → result B) :
  succeeds (m ≫= k) ↔ ∃ a, m = Ok a ∧ succeeds (k a).
Proof.
  unfold succeeds. split.
  - intros [b H]. apply bind_Ok_inv in H as (a & -> & H). eauto.
  - intros (a & -> & b & H). rewrite bind_Ok. eauto.
Qed.

Lemma convertible_sym (u1 u2 : unit_id) : convertible u1 u2 ↔ convertible u2 u1.
Proof. unfold convertible. split; intros [->|[? ?]]; auto. Qed.

Lemma convert_succeeds (v : float) (u1 u2 : unit_id) :
  succeeds (convert v u1 u2) ↔ convertible u1 u2.
Proof.
  unfold succeeds, convertible.
  destruct (decide (u1 = u2)) as [->|Hne].
  { rewrite convert_same. split; eauto. }
  rewrite !in_units_lookup.
  destruct (UNIT_MAP !! u1) as [s1|] eqn:H1.
  - destruct (UNIT_MAP !! u2) as [s2|] eqn:H2.
    + rewrite (convert_known _ _ _ _ _ Hne H1 H2).
      split; [intros _; right; split; eauto | eauto].
    + rewrite (convert_to_absent _ _ _ _ Hne H1 H2).
      split; [intros [a H]; discriminate H|].
      intros [?|[_ [? ?]]]; done.
  - rewrite (convert_from_absent _ _ _ Hne H1).
    split; [intros [a H]; discriminate H|].
    intros [?|[[? ?] _]]; done.
Qed.

(** X1: [convert] has a result exactly when the two units are equal or both
    are keys of the unit table, whatever the value; [units()] is the set of
    the seven keys. *)
Theorem convert_succeeds_iff_convertible (v : float) (u1 u2 : unit_id) :
  ((∃ r, convert v u1 u2 = Ok r) ↔ u1 = u2 ∨ (u1 ∈ units ∧ u2 ∈ units)) ∧
  (∀ u : unit_id,
     u ∈ units ↔
     u ∈ [None; Some "px"; Some "pt"; Some "pc"; Some "in"; Some "cm";
          Some "mm"]).
Proof.
  split; [apply convert_succeeds|].
  intros u. rewrite in_units_lookup. split.
  - intros [s H%lookup_UNIT_MAP]. each_entry H; set_solver.
  - intros H.
    repeat (apply elem_of_cons in H as [->|H]; [by eexists|]).
    by apply elem_of_nil in H.
Qed.

(** ** Exceptions that can escape *)

Definition is_unit_error (e : exn) : Prop :=
  ∃ msg, e = ExceptionCoordUnitConvert msg.

Definition raises_only_unit_errors {A : Type} (m : result A) : Prop :=
  ∀ e, m = Raise e → is_unit_error e.

Lemma raises_only_Ok {A : Type} (a : A) : raises_only_unit_errors (Ok a).
Proof. intros e H. discriminate H. Qed.

Lemma raises_only_bind {A B : Type} (m : result A) (k : A → result B) :
  raises_only_unit_errors m → (∀ a, raises_only_unit_errors (k a)) →
  raises_only_unit_errors (m ≫= k).
Proof.
  intros Hm Hk e He. destruct m as [a|e'].
  - exact (Hk a e He).
  - rewrite bind_Raise in He. injection He as <-. exact (Hm e' eq_refl).
Qed.

Lemma raises_only_convert (v : float) (u1 u2 : unit_id) :
  raises_only_unit_errors (convert v u1 u2).
Proof. intros e. apply convert_raises_only_unit_errors. Qed.

Ltac solve_raises_only :=
  repeat first
    [ apply raises_only_convert
    | apply raises_only_Ok
    | apply raises_only_bind; [|intros ?]
    | case_decide
    | case_match ].

Lemma raises_only_Dim_convert (d : Dim.t) (u : unit_id) :
  raises_only_unit_errors (Dim.convert d u).
Proof. unfold Dim.convert. solve_raises_only. Qed.

Lemma raises_only_Dim_add (a b : Dim.t) :
  raises_only_unit_errors (Dim.__add__ a b).
Proof. unfold Dim.__add__. solve_raises_only. Qed.

Lemma raises_only_Dim_sub (a b : Dim.t) :
  raises_only_unit_errors (Dim.__sub__ a b).
Proof. unfold Dim.__sub__. solve_raises_only. Qed.

Lemma raises_only_Dim_eq (a b : Dim.t) :
  raises_only_unit_errors (Dim.__eq__ a b).
Proof. unfold Dim.__eq__. solve_raises_only. Qed.

(** X2: whatever is raised by [convert], by a [Dim] conversion, sum,
    difference or comparison, by a [Pt] conversion or comparison, by
    [newPt] or by [convertPt] is an [ExceptionCoordUnitConvert]: the
    [KeyError] of the table lookup is always caught and the division by a
    table factor never divides by zero. *)
Theorem only_unit_errors_escape
    (v : float) (u1 u2 : unit_id) (a b : Dim.t) (p q : Pt.t)
    (incX incY : option Dim.t) (e : exn) :
  convert v u1 u2 = Raise e ∨ Dim.convert a u1 = Raise e ∨
  Dim.__add__ a b = Raise e ∨ Dim.__sub__ a b = Raise e ∨
  Dim.__iadd__ a b = Raise e ∨ Dim.__isub__ a b = Raise e ∨
  Dim.__lt__ a b = Raise e ∨ Dim.__le__ a b = Raise e ∨
  Dim.__eq__ a b = Raise e ∨ Dim.__ne__ a b = Raise e ∨
  Dim.__gt__ a b = Raise e ∨ Dim.__ge__ a b = Raise e ∨
  Pt.__eq__ p q = Raise e ∨ Pt.convert p u1 = Raise e ∨
  newPt p incX incY = Raise e ∨ convertPt p u1 = Raise e →
  ∃ msg, e = ExceptionCoordUnitConvert msg.
Proof.
  intros H. repeat destruct H as [H|H];
    match type of H with
    | ?m = Raise _ =>
        cut (raises_only_unit_errors m); [intros Hr; exact (Hr e H)|clear H]
    end.
  - apply raises_only_convert.
  - apply raises_only_Dim_convert.
  - apply raises_only_Dim_add.
  - apply raises_only_Dim_sub.
  - apply raises_only_Dim_add.
  - apply raises_only_Dim_sub.
  - unfold Dim.__lt__. solve_raises_only.
  - unfold Dim.__le__. solve_raises_only.
  - apply raises_only_Dim_eq.
  - unfold Dim.__ne__. solve_raises_only.
  - unfold Dim.__gt__. solve_raises_only.
  - unfold Dim.__ge__. solve_raises_only.
  - unfold Pt.__eq__. apply raises_only_bind; [apply raises_only_Dim_eq|].
    intros [|]; [apply raises_only_Dim_eq | apply raises_only_Ok].
  - unfold Pt.convert.
    repeat (apply raises_only_bind; [apply raises_only_Dim_convert|intros ?]).
    apply raises_only_Ok.
  - unfold newPt, Dim.__iadd__.
    apply raises_only_bind;
      [destruct incX; [apply raises_only_Dim_add | apply raises_only_Ok]|].
    intros nx. apply raises_only_bind;
      [destruct incY; [apply raises_only_Dim_add | apply raises_only_Ok]|].
    intros ny. apply raises_only_Ok.
  - unfold convertPt. solve_raises_only.
Qed.

Lemma only_unit_errors_escape_witness :
  ∃ msg, ExceptionCoordUnitConvert "Unsupported units in" =
         ExceptionCoordUnitConvert msg.
Proof.
  apply (only_unit_errors_escape
           1.0%float (Some "bogus") (Some "in")
           (Dim.mk 1 (Some "in")) (Dim.mk 1 (Some "bogus"))
           zeroBaseUnitsPt zeroBaseUnitsPt None None
           (ExceptionCoordUnitConvert "Unsupported units in")).
  left. reflexivity.
Defined.

(** ** When Dim operations succeed *)

Lemma succeeds_convert_then {A : Type} (v : float) (u1 u2 : unit_id)
    (k : float → A) :
  succeeds (c ← convert v u1 u2; Ok (k c)) ↔ convertible u1 u2.
Proof.
  rewrite succeeds_bind, <- (convert_succeeds v). unfold succeeds. split.
  - intros (c & H & _). eauto.
  - intros [c H]. eauto.
Qed.

Lemma Dim_add_succeeds (a b : Dim.t) :
  succeeds (Dim.__add__ a b) ↔ convertible (Dim.units a) (Dim.units b).
Proof.
  unfold Dim.__add__. case_decide; rewrite succeeds_convert_then;
    [done | apply convertible_sym].
Qed.

Lemma Dim_sub_succeeds (a b : Dim.t) :
  succeeds (Dim.__sub__ a b) ↔ convertible (Dim.units a) (Dim.units b).
Proof.
  unfold Dim.__sub__. case_decide; rewrite succeeds_convert_then;
    [done | apply convertible_sym].
Qed.

Lemma Dim_comparisons_succeed (a b : Dim.t) :
  (succeeds (Dim.__lt__ a b) ↔ convertible (Dim.units a) (Dim.units b)) ∧
  (succeeds (Dim.__le__ a b) ↔ convertible (Dim.units a) (Dim.units b)) ∧
  (succeeds (Dim.__eq__ a b) ↔ convertible (Dim.units a) (Dim.units b)) ∧
  (succeeds (Dim.__ne__ a b) ↔ convertible (Dim.units a) (Dim.units b)) ∧
  (succeeds (Dim.__gt__ a b) ↔ convertible (Dim.units a) (Dim.units b)) ∧
  (succeeds (Dim.__ge__ a b) ↔ convertible (Dim.units a) (Dim.units b)).
Proof.
  unfold Dim.__lt__, Dim.__le__, Dim.__eq__, Dim.__ne__, Dim.__gt__,
    Dim.__ge__.
  split_and!; rewrite succeeds_convert_then; apply convertible_sym.
Qed.

(** X3: a sum, a difference or a comparison of two [Dim]s has a result
    exactly when their units are equal or both in the unit table; the
    values play no part, and neither does the order of the operands:
    [a op b] raises if and only if [b op a] does. *)
Theorem Dim_binary_operations_succeed_iff (a b : Dim.t) :
  let ok := Dim.units a = Dim.units b ∨
            (Dim.units a ∈ units ∧ Dim.units b ∈ units) in
  ((∃ r, Dim.__add__ a b = Ok r) ↔ ok) ∧
  ((∃ r, Dim.__sub__ a b = Ok r) ↔ ok) ∧
  ((∃ r, Dim.__lt__ a b = Ok r) ↔ ok) ∧
  ((∃ r, Dim.__le__ a b = Ok r) ↔ ok) ∧
  ((∃ r, Dim.__eq__ a b = Ok r) ↔ ok) ∧
  ((∃ r, Dim.__ne__ a b = Ok r) ↔ ok) ∧
  ((∃ r, Dim.__gt__ a b = Ok r) ↔ ok) ∧
  ((∃ r, Dim.__ge__ a b = Ok r) ↔ ok) ∧
  ((∃ e, Dim.__add__ a b = Raise e) ↔ (∃ e, Dim.__add__ b a = Raise e)) ∧
  ((∃ e, Dim.__sub__ a b = Raise e) ↔ (∃ e, Dim.__sub__ b a = Raise e)) ∧
  ((∃ e, Dim.__eq__ a b = Raise e) ↔ (∃ e, Dim.__eq__ b a = Raise e)) ∧
  ((∃ e, Dim.__lt__ a b = Raise e) ↔ (∃ e, Dim.__gt__ b a = Raise e)).
Proof.
  intros ok.
  pose proof (Dim_comparisons_succeed a b) as (Hlt & Hle & Heq & Hne & Hgt & Hge).
  pose proof (Dim_comparisons_succeed b a) as (_ & _ & Heq' & _ & Hgt' & _).
  split_and!;
    try (first [apply Dim_add_succeeds | apply Dim_sub_succeeds | assumption]).
  - change (fails (Dim.__add__ a b) ↔ fails (Dim.__add__ b a)).
    apply not_iff_compat_rev_succeeds.
    rewrite !Dim_add_succeeds. apply convertible_sym.
  - change (fails (Dim.__sub__ a b) ↔ fails (Dim.__sub__ b a)).
    apply not_iff_compat_rev_succeeds.
    rewrite !Dim_sub_succeeds. apply convertible_sym.
  - change (fails (Dim.__eq__ a b) ↔ fails (Dim.__eq__ b a)).
    apply not_iff_compat_rev_succeeds.
    rewrite Heq, Heq'. apply convertible_sym.
  - change (fails (Dim.__lt__ a b) ↔ fails (Dim.__gt__ b a)).
    apply not_iff_compat_rev_succeeds.
    rewrite Hlt, Hgt'. apply convertible_sym.
Qed.

(** X4: on two [Dim]s whose units are keys of the unit table nothing is
    raised: the sum and the difference exist and carry the units the
    resolution rule gives, and the six comparisons return a boolean. *)
Theorem Dim_operations_total_on_table_units (a b : Dim.t) :
  Dim.units a ∈ units → Dim.units b ∈ units →
  (∃ r, Dim.__add__ a b = Ok r ∧ Dim.units r = resolved_units a b) ∧
  (∃ r, Dim.__sub__ a b = Ok r ∧ Dim.units r = resolved_units a b) ∧
  (∃ r, Dim.__lt__ a b = Ok r) ∧ (∃ r, Dim.__le__ a b = Ok r) ∧
  (∃ r, Dim.__eq__ a b = Ok r) ∧ (∃ r, Dim.__ne__ a b = Ok r) ∧
  (∃ r, Dim.__gt__ a b = Ok r) ∧ (∃ r, Dim.__ge__ a b = Ok r).
Proof.
  intros Ha Hb.
  assert (convertible (Dim.units a) (Dim.units b)) as Hc by (right; done).
  pose proof (Dim_comparisons_succeed a b) as (Hlt & Hle & Heq & Hne & Hgt & Hge).
  split_and!.
  - apply Dim_add_succeeds in Hc as [r Hr]. exists r. split; [done|].
    apply (Dim_add_units a b). by left.
  - apply Dim_sub_succeeds in Hc as [r Hr]. exists r. split; [done|].
    apply (Dim_add_units a b). by right.
  - by apply Hlt.
  - by apply Hle.
  - by apply Heq.
  - by apply Hne.
  - by apply Hgt.
  - by apply Hge.
Qed.

Lemma Dim_operations_total_on_table_units_witness :
  (∃ r, Dim.__add__ (Dim.mk 2 None) (Dim.mk 3 (Some "mm")) = Ok r ∧
        Dim.units r = Some "mm") ∧
  (∃ r, Dim.__sub__ (Dim.mk 2 None) (Dim.mk 3 (Some "mm")) = Ok r ∧
        Dim.units r = Some "mm") ∧
  (∃ r, Dim.__lt__ (Dim.mk 2 None) (Dim.mk 3 (Some "mm")) = Ok r) ∧
  (∃ r, Dim.__le__ (Dim.mk 2 None) (Dim.mk 3 (Some "mm")) = Ok r) ∧
  (∃ r, Dim.__eq__ (Dim.mk 2 None) (Dim.mk 3 (Some "mm")) = Ok r) ∧
  (∃ r, Dim.__ne__ (Dim.mk 2 None) (Dim.mk 3 (Some "mm")) = Ok r) ∧
  (∃ r, Dim.__gt__ (Dim.mk 2 None) (Dim.mk 3 (Some "mm")) = Ok r) ∧
  (∃ r, Dim.__ge__ (Dim.mk 2 None) (Dim.mk 3 (Some "mm")) = Ok r).
Proof.
  apply (Dim_operations_total_on_table_units
           (Dim.mk 2 None) (Dim.mk 3 (Some "mm")));
    apply in_units_lookup; vm_compute; eauto.
Defined.

(** X5: two [Dim]s with the same units, in the unit table or not, are
    added and subtracted without any conversion and without any exception:
    the values are combined as they are and the units are kept. *)
Theorem Dim_same_units_never_fail (a b : Dim.t) :
  Dim.units a = Dim.units b →
  Dim.__add__ a b =
    Ok (Dim.mk (Dim.value a + Dim.value b)%float (Dim.units a)) ∧
  Dim.__sub__ a b =
    Ok (Dim.mk (Dim.value a - Dim.value b)%float (Dim.units a)).
Proof.
  intros Heq.
  destruct (Dim_add_otherwise a b) as [-> ->].
  - rewrite Heq. tauto.
  - by rewrite Heq, convert_same.
Qed.

Lemma Dim_same_units_never_fail_witness :
  Dim.__add__ (Dim.mk 1.5 (Some "furlong")) (Dim.mk 2 (Some "furlong")) =
    Ok (Dim.mk (1.5 + 2)%float (Some "furlong")) ∧
  Dim.__sub__ (Dim.mk 1.5 (Some "furlong")) (Dim.mk 2 (Some "furlong")) =
    Ok (Dim.mk (1.5 - 2)%float (Some "furlong")).
Proof.
  apply (Dim_same_units_never_fail
           (Dim.mk 1.5 (Some "furlong")) (Dim.mk 2 (Some "furlong"))).
  reflexivity.
Defined.

(** X6: when one operand has unspecified units and the other has not, the
    sum is the same [Dim], value and units, whichever operand comes first
    (and the same exception when the other's units are not in the table). *)
Theorem Dim_add_commutes_with_unspecified (a b : Dim.t) :
  Dim.units a = None → Dim.units b ≠ None →
  Dim.__add__ a b = Dim.__add__ b a.
Proof.
  intros Ha Hb.
  destruct (Dim_add_left_unspecified a b Ha Hb) as [-> _].
  destruct (Dim_add_otherwise b a) as [-> _]; [tauto|reflexivity].
Qed.

Lemma Dim_add_commutes_with_unspecified_witness :
  Dim.__add__ (Dim.mk 5 None) (Dim.mk 1 (Some "in")) =
  Dim.__add__ (Dim.mk 1 (Some "in")) (Dim.mk 5 None).
Proof.
  apply (Dim_add_commutes_with_unspecified
           (Dim.mk 5 None) (Dim.mk 1 (Some "in")));
    [reflexivity | discriminate].
Defined.

Lemma Dim_convert_own_units (d : Dim.t) : Dim.convert d (Dim.units d) = Ok d.
Proof. unfold Dim.convert. rewrite convert_same. by destruct d. Qed.

Lemma Dim_convert_again (d r : Dim.t) (u : unit_id) :
  Dim.convert d u = Ok r → Dim.units r = u ∧ Dim.convert r u = Ok r.
Proof.
  unfold Dim.convert. intros (c & Hc & [= <-])%bind_Ok_inv. simpl.
  by rewrite convert_same.
Qed.

(** X7: converting a [Dim] to its own units returns it unchanged, for any
    units at all, in the unit table or not; and [d.convert(u)], when it
    succeeds, gives a [Dim] in units [u] that converting to [u] again
    leaves as it is. *)
Theorem Dim_convert_idempotent (d : Dim.t) (u : unit_id) :
  Dim.convert d (Dim.units d) = Ok d ∧
  (∀ r : Dim.t,
     Dim.convert d u = Ok r → Dim.units r = u ∧ Dim.convert r u = Ok r).
Proof.
  split; [apply Dim_convert_own_units | intros r; apply Dim_convert_again].
Qed.

Lemma Dim_convert_idempotent_witness :
  Dim.convert (Dim.mk 1 (Some "bogus")) (Some "bogus") =
    Ok (Dim.mk 1 (Some "bogus")) ∧
  Some "pt" = Some "pt" ∧
  Dim.convert (Dim.mk 144.0 (Some "pt")) (Some "pt") =
    Ok (Dim.mk 144.0 (Some "pt")).
Proof.
  split.
  - apply (proj1 (Dim_convert_idempotent
                    (Dim.mk 1 (Some "bogus")) (Some "pt"))).
  - apply (proj2 (Dim_convert_idempotent (Dim.mk 2 (Some "in")) (Some "pt"))
             (Dim.mk 144.0 (Some "pt"))).
    reflexivity.
Defined.

(** ** Points: conversion, comparison, translation *)

Lemma Dim_convert_succeeds (d : Dim.t) (u : unit_id) :
  succeeds (Dim.convert d u) ↔ convertible (Dim.units d) u.
Proof. unfold Dim.convert. apply succeeds_convert_then. Qed.

Lemma Pt_convert_succeeds (p : Pt.t) (u : unit_id) :
  succeeds (Pt.convert p u) ↔
  convertible (Dim.units (Pt.x p)) u ∧ convertible (Dim.units (Pt.y p)) u.
Proof.
  unfold Pt.convert. rewrite succeeds_bind.
  rewrite <- !Dim_convert_succeeds. split.
  - intros (nx & Hx & Hy). apply succeeds_bind in Hy as (ny & Hy & _).
    unfold succeeds. eauto.
  - intros [[nx Hx] [ny Hy]]. exists nx. split; [done|].
    apply succeeds_bind. exists ny. unfold succeeds. eauto.
Qed.

(** X8: [p.convert(u)] has a result exactly when each of the two fields has
    units equal to [u], or in the unit table together with [u]; scaling the
    point first changes nothing to that; and when x converts but y does
    not, the exception raised is the one of y's conversion. *)
Theorem Pt_convert_succeeds_iff (p : Pt.t) (u : unit_id) :
  ((∃ r, Pt.convert p u = Ok r) ↔
     (Dim.units (Pt.x p) = u ∨ (Dim.units (Pt.x p) ∈ units ∧ u ∈ units)) ∧
     (Dim.units (Pt.y p) = u ∨ (Dim.units (Pt.y p) ∈ units ∧ u ∈ units))) ∧
  (∀ factor : float,
     (∃ r, Pt.convert (Pt.scale p factor) u = Ok r) ↔
     (∃ r, Pt.convert p u = Ok r)) ∧
  (∀ (nx : Dim.t) (e : exn),
     Dim.convert (Pt.x p) u = Ok nx → Dim.convert (Pt.y p) u = Raise e →
     Pt.convert p u = Raise e).
Proof.
  split_and!.
  - apply Pt_convert_succeeds.
  - intros factor.
    change (succeeds (Pt.convert (Pt.scale p factor) u) ↔
            succeeds (Pt.convert p u)).
    rewrite !Pt_convert_succeeds. reflexivity.
  - intros nx e Hx Hy. unfold Pt.convert. by rewrite Hx, bind_Ok, Hy.
Qed.

Lemma Pt_convert_succeeds_iff_witness :
  Pt.convert (Pt.mk (Dim.mk 1 (Some "in")) (Dim.mk 2 (Some "bogus")))
             (Some "in") =
    Raise (ExceptionCoordUnitConvert "Unsupported units in").
Proof.
  apply (proj2 (proj2
    (Pt_convert_succeeds_iff
       (Pt.mk (Dim.mk 1 (Some "in")) (Dim.mk 2 (Some "bogus")))
       (Some "in")))
    (Dim.mk 1 (Some "in"))); reflexivity.
Defined.

(** X9: a point obtained from [p.convert(u)] has both fields in units [u],
    and converting it to [u] once more, with the method or with
    [convertPt], returns the same point. *)
Theorem Pt_convert_idempotent (p r : Pt.t) (u : unit_id) :
  Pt.convert p u = Ok r →
  Dim.units (Pt.x r) = u ∧ Dim.units (Pt.y r) = u ∧
  Pt.convert r u = Ok r ∧ convertPt r u = Ok r.
Proof.
  unfold Pt.convert. intros (nx & Hx & H)%bind_Ok_inv.
  apply bind_Ok_inv in H as (ny & Hy & [= <-]).
  destruct (Dim_convert_again _ _ _ Hx) as (Hux & Hx').
  destruct (Dim_convert_again _ _ _ Hy) as (Huy & Hy').
  simpl. split_and!; [done | done | by rewrite Hx', bind_Ok, Hy' |].
  unfold convertPt. simpl. rewrite Hux, Huy, !convert_same.
  destruct nx, ny; simpl in *; by subst.
Qed.

Lemma Pt_convert_idempotent_witness :
  Some "pt" = Some "pt" ∧ Some "pt" = Some "pt" ∧
  Pt.convert (Pt.mk (Dim.mk 72.0 (Some "pt")) (Dim.mk 24.0 (Some "pt")))
             (Some "pt") =
    Ok (Pt.mk (Dim.mk 72.0 (Some "pt")) (Dim.mk 24.0 (Some "pt"))) ∧
  convertPt (Pt.mk (Dim.mk 72.0 (Some "pt")) (Dim.mk 24.0 (Some "pt")))
            (Some "pt") =
    Ok (Pt.mk (Dim.mk 72.0 (Some "pt")) (Dim.mk 24.0 (Some "pt"))).
Proof.
  apply (Pt_convert_idempotent
           (Pt.mk (Dim.mk 1 (Some "in")) (Dim.mk 2 (Some "pc")))
           (Pt.mk (Dim.mk 72.0 (Some "pt")) (Dim.mk 24.0 (Some "pt")))
           (Some "pt")).
  reflexivity.
Defined.

(** X10: two points are equal exactly when both coordinates compare equal;
    when the x coordinates differ the answer is false without the y
    coordinates being compared, so that unconvertible y units raise nothing;
    an exception of the x comparison is the outcome. *)
Theorem Pt_eq_componentwise (p q : Pt.t) :
  (Pt.__eq__ p q = Ok true ↔
     Dim.__eq__ (Pt.x p) (Pt.x q) = Ok true ∧
     Dim.__eq__ (Pt.y p) (Pt.y q) = Ok true) ∧
  (Dim.__eq__ (Pt.x p) (Pt.x q) = Ok false → Pt.__eq__ p q = Ok false) ∧
  (Dim.__eq__ (Pt.x p) (Pt.x q) = Ok true →
     Pt.__eq__ p q = Dim.__eq__ (Pt.y p) (Pt.y q)) ∧
  (∀ e : exn,
     Dim.__eq__ (Pt.x p) (Pt.x q) = Raise e → Pt.__eq__ p q = Raise e).
Proof.
  unfold Pt.__eq__. split_and!.
  - split.
    + intros (bx & Hx & H)%bind_Ok_inv. destruct bx; [done|discriminate].
    + intros [-> ->]. reflexivity.
  - by intros ->.
  - by intros ->.
  - by intros e ->.
Qed.

Lemma Pt_eq_componentwise_witness :
  Pt.__eq__ (Pt.mk (Dim.mk 1 (Some "in")) (Dim.mk 1 (Some "bogus")))
            (Pt.mk (Dim.mk 2 (Some "in")) (Dim.mk 1 (Some "in"))) = Ok false ∧
  fails (Dim.__eq__ (Dim.mk 1 (Some "bogus")) (Dim.mk 1 (Some "in"))).
Proof.
  split.
  - apply (proj1 (proj2
      (Pt_eq_componentwise
         (Pt.mk (Dim.mk 1 (Some "in")) (Dim.mk 1 (Some "bogus")))
         (Pt.mk (Dim.mk 2 (Some "in")) (Dim.mk 1 (Some "in")))))).
    reflexivity.
  - eexists. reflexivity.
Defined.

(** An increment that [newPt] can apply to a coordinate: none at all, or a
    [Dim] whose units can be combined with the coordinate's. *)
Definition increment_applies (d : Dim.t) (inc : option Dim.t) : Prop :=
  match inc with
  | None => True
  | Some i =>
      Dim.units d = Dim.units i ∨ (Dim.units d ∈ units ∧ Dim.units i ∈ units)
  end.

Definition incremented (d : Dim.t) (inc : option Dim.t) : result Dim.t :=
  match inc with
  | Some i => Dim.__iadd__ d i
  | None => Ok d
  end.

Lemma incremented_succeeds (d : Dim.t) (inc : option Dim.t) :
  succeeds (incremented d inc) ↔ increment_applies d inc.
Proof.
  destruct inc as [i|]; simpl.
  - apply Dim_add_succeeds.
  - unfold succeeds. split; eauto.
Qed.

Lemma newPt_unfold (p : Pt.t) (incX incY : option Dim.t) :
  newPt p incX incY =
    (newX ← incremented (Pt.x p) incX;
     newY ← incremented (Pt.y p) incY;
     Ok (Pt.mk newX newY)).
Proof. reflexivity. Qed.

Lemma resolved_units_specified (a b : Dim.t) :
  Dim.units a ≠ None → resolved_units a b = Dim.units a.
Proof. unfold resolved_units. by destruct (Dim.units a), (Dim.units b). Qed.

Lemma resolved_units_unspecified (a b : Dim.t) :
  Dim.units a = None → resolved_units a b = Dim.units b.
Proof.
  unfold resolved_units. intros ->. by destruct (Dim.units b).
Qed.

Lemma incremented_units (d r : Dim.t) (inc : option Dim.t) :
  incremented d inc = Ok r →
  (inc = None → r = d) ∧
  (Dim.units d ≠ None → Dim.units r = Dim.units d) ∧
  (∀ i, inc = Some i → Dim.units d = None → Dim.units r = Dim.units i).
Proof.
  destruct inc as [i|]; simpl.
  - unfold Dim.__iadd__. intros H. split_and!; [done| |].
    + intros Hd. rewrite <- (resolved_units_specified d i Hd).
      apply Dim_add_units. by left.
    + intros ? [= <-] Hd. rewrite <- (resolved_units_unspecified d i Hd).
      apply Dim_add_units. by left.
  - intros [= <-]. done.
Qed.

(** X11: [newPt] has a result exactly when each increment given can be added
    to its coordinate (equal units, or both in the unit table); without
    increments it returns the point itself; and when the x increment cannot
    be added, its exception is raised whatever the y increment is. *)
Theorem newPt_succeeds_iff (p : Pt.t) (incX incY : option Dim.t) :
  ((∃ r, newPt p incX incY = Ok r) ↔
     increment_applies (Pt.x p) incX ∧ increment_applies (Pt.y p) incY) ∧
  newPt p None None = Ok p ∧
  (∀ (dx : Dim.t) (e : exn),
     incX = Some dx → Dim.__add__ (Pt.x p) dx = Raise e →
     newPt p incX incY = Raise e).
Proof.
  split_and!.
  - change (succeeds (newPt p incX incY) ↔
            increment_applies (Pt.x p) incX ∧ increment_applies (Pt.y p) incY).
    rewrite newPt_unfold, succeeds_bind, <- !incremented_succeeds. split.
    + intros (nx & Hx & Hy). apply succeeds_bind in Hy as (ny & Hy & _).
      unfold succeeds. eauto.
    + intros [[nx Hx] [ny Hy]]. exists nx. split; [done|].
      apply succeeds_bind. exists ny. unfold succeeds. eauto.
  - by destruct p.
  - intros dx e -> H. rewrite newPt_unfold. simpl.
    unfold Dim.__iadd__. by rewrite H.
Qed.

Lemma newPt_succeeds_iff_witness :
  newPt (Pt.mk (Dim.mk 1 (Some "in")) (Dim.mk 1 (Some "in")))
        (Some (Dim.mk 1 (Some "bogus"))) (Some (Dim.mk 1 (Some "cm"))) =
    Raise (ExceptionCoordUnitConvert "Unsupported units in").
Proof.
  apply (proj2 (proj2
    (newPt_succeeds_iff
       (Pt.mk (Dim.mk 1 (Some "in")) (Dim.mk 1 (Some "in")))
       (Some (Dim.mk 1 (Some "bogus"))) (Some (Dim.mk 1 (Some "cm")))))
    (Dim.mk 1 (Some "bogus"))); reflexivity.
Defined.

(** X12: in the point [newPt] returns, a coordinate without increment is the
    old coordinate, a coordinate that had units keeps them, and a
    coordinate with unspecified units takes the units of its increment. *)
Theorem newPt_result_units (p r : Pt.t) (incX incY : option Dim.t) :
  newPt p incX incY = Ok r →
  (incX = None → Pt.x r = Pt.x p) ∧
  (incY = None → Pt.y r = Pt.y p) ∧
  (Dim.units (Pt.x p) ≠ None → Dim.units (Pt.x r) = Dim.units (Pt.x p)) ∧
  (Dim.units (Pt.y p) ≠ None → Dim.units (Pt.y r) = Dim.units (Pt.y p)) ∧
  (∀ i, incX = Some i → Dim.units (Pt.x p) = None →
        Dim.units (Pt.x r) = Dim.units i) ∧
  (∀ i, incY = Some i → Dim.units (Pt.y p) = None →
        Dim.units (Pt.y r) = Dim.units i).
Proof.
  rewrite newPt_unfold. intros (nx & Hx & H)%bind_Ok_inv.
  apply bind_Ok_inv in H as (ny & Hy & [= <-]). simpl.
  destruct (incremented_units _ _ _ Hx) as (? & ? & ?).
  destruct (incremented_units _ _ _ Hy) as (? & ? & ?).
  done.
Qed.

Lemma newPt_result_units_witness :
  (Some (Dim.mk 5 (Some "in")) = None →
     Dim.mk 5 (Some "in") = Dim.mk 0 None) ∧
  (@None Dim.t = None → Dim.mk 7 (Some "cm") = Dim.mk 7 (Some "cm")) ∧
  (@None string ≠ None → Some "in" = None) ∧
  (Some "cm" ≠ None → Some "cm" = Some "cm") ∧
  (∀ i, Some (Dim.mk 5 (Some "in")) = Some i → @None string = None →
        Some "in" = Dim.units i) ∧
  (∀ i : Dim.t, None = Some i → Some "cm" = None → Some "cm" = Dim.units i).
Proof.
  apply (newPt_result_units
           (Pt.mk (Dim.mk 0 None) (Dim.mk 7 (Some "cm")))
           (Pt.mk (Dim.mk 5 (Some "in")) (Dim.mk 7 (Some "cm")))
           (Some (Dim.mk 5 (Some "in"))) None).
  vm_compute. reflexivity.
Defined.

(** ** Zero values and inch values *)

Definition zero_fields : list Dim.t :=
  [ zeroBaseUnitsDim;
    Box.width zeroBaseUnitsBox; Box.depth zeroBaseUnitsBox;
    Pad.prev zeroBaseUnitsPad; Pad.next zeroBaseUnitsPad;
    Pad.parent zeroBaseUnitsPad; Pad.child zeroBaseUnitsPad;
    Pt.x zeroBaseUnitsPt; Pt.y zeroBaseUnitsPt ].

Lemma zero_in_unit (u : unit_id) :
  u ∈ units →
  Dim.convert zeroBaseUnitsDim u = Ok (Dim.mk 0 u) ∧
  Dim.__eq__ zeroBaseUnitsDim (Dim.mk 0 u) = Ok true ∧
  Dim.__eq__ (Dim.mk 0 u) zeroBaseUnitsDim = Ok true.
Proof.
  intros [s H%lookup_UNIT_MAP]%in_units_lookup.
  each_entry H; split_and!; reflexivity.
Qed.

(** X13: every field of the zero [Dim], [Box], [Pad] and [Pt] is zero in any
    unit of the table: converted to the unit it is [Dim(0.0, u)], and it
    compares equal to [Dim(0.0, u)] from either side. *)
Theorem zero_values_are_zero_in_every_unit (u : unit_id) (d : Dim.t) :
  u ∈ units → d ∈ zero_fields →
  Dim.convert d u = Ok (Dim.mk 0 u) ∧
  Dim.__eq__ d (Dim.mk 0 u) = Ok true ∧
  Dim.__eq__ (Dim.mk 0 u) d = Ok true.
Proof.
  intros Hu Hd.
  assert (d = zeroBaseUnitsDim) as ->.
  { unfold zero_fields in Hd.
    repeat (apply elem_of_cons in Hd as [->|Hd]; [reflexivity|]).
    by apply elem_of_nil in Hd. }
  by apply zero_in_unit.
Qed.

Lemma zero_values_are_zero_in_every_unit_witness :
  Dim.convert (Pad.child zeroBaseUnitsPad) (Some "cm") =
    Ok (Dim.mk 0 (Some "cm")) ∧
  Dim.__eq__ (Pad.child zeroBaseUnitsPad) (Dim.mk 0 (Some "cm")) = Ok true ∧
  Dim.__eq__ (Dim.mk 0 (Some "cm")) (Pad.child zeroBaseUnitsPad) = Ok true.
Proof.
  apply (zero_values_are_zero_in_every_unit
           (Some "cm") (Pad.child zeroBaseUnitsPad)).
  - apply in_units_lookup. vm_compute. eauto.
  - unfold zero_fields. do 6 apply list_elem_of_further.
    apply list_elem_of_here.
Defined.

(** X14: moving the zero point by inch values gives a point in base units,
    72 base units to the inch, for any two values; and an inch value
    converted to base units is the base-units [Dim] of 72 times the value. *)
Theorem zero_point_moved_by_inches (v w : float) :
  newPt zeroBaseUnitsPt (Some (dimIn v)) (Some (dimIn w)) =
    Ok (Pt.mk (baseUnitsDim (0.0 + v * 72.0 / 1.0))
              (baseUnitsDim (0.0 + w * 72.0 / 1.0))) ∧
  Dim.convert (dimIn v) BASE_UNITS = Ok (baseUnitsDim (v * 72.0 / 1.0)) ∧
  Dim.__eq__ (baseUnitsDim w) (dimIn v) = Ok (w =? v * 72.0 / 1.0)%float.
Proof.
  assert (∀ x, convert x (Some "in") (Some "px") = Ok (x * 72.0 / 1.0)%float)
    as Hin by (intros x; by apply convert_known).
  split_and!.
  - rewrite newPt_unfold.
    unfold incremented, Dim.__iadd__, Dim.__add__, dimIn, zeroBaseUnitsPt,
      zeroBaseUnitsDim, baseUnitsDim, BASE_UNITS.
    cbn [Pt.x Pt.y Dim.units Dim.value].
    rewrite !decide_False by (intros [[=] _]).
    by rewrite !Hin.
  - unfold Dim.convert, dimIn, baseUnitsDim, BASE_UNITS.
    cbn [Dim.units Dim.value]. by rewrite Hin.
  - unfold Dim.__eq__, dimIn, baseUnitsDim, BASE_UNITS.
    cbn [Dim.units Dim.value]. by rewrite Hin.
Qed.

(** ** What floating point takes away *)

(** X15: equality of [Dim]s in different units depends on the side each
    operand is on, and a conversion there and back need not return the
    value: [Dim(1.0, "mm") == Dim(0.1, "cm")] is true while
    [Dim(0.1, "cm") == Dim(1.0, "mm")] is false, since 0.1 cm converts to
    1.0 mm but 1.0 mm does not convert back to 0.1 cm. *)
Theorem Dim_eq_not_symmetric :
  ¬ (∀ a b : Dim.t,
       Dim.units a ∈ units → Dim.units b ∈ units →
       Dim.__eq__ a b = Dim.__eq__ b a) ∧
  ¬ (∀ (v r : float) (u1 u2 : unit_id),
       u1 ∈ units → u2 ∈ units →
       convert v u1 u2 = Ok r → convert r u2 u1 = Ok v) ∧
  Dim.__eq__ (Dim.mk 1.0 (Some "mm")) (Dim.mk 0.1 (Some "cm")) = Ok true ∧
  Dim.__eq__ (Dim.mk 0.1 (Some "cm")) (Dim.mk 1.0 (Some "mm")) = Ok false ∧
  Dim.__ne__ (Dim.mk 0.1 (Some "cm")) (Dim.mk 1.0 (Some "mm")) = Ok true.
Proof.
  assert (Some "mm" ∈ units ∧ Some "cm" ∈ units) as [Hmm Hcm].
  { split; apply in_units_lookup; vm_compute; eauto. }
  split_and!; [| |reflexivity..].
  - intros H.
    specialize (H (Dim.mk 1.0 (Some "mm")) (Dim.mk 0.1 (Some "cm")) Hmm Hcm).
    vm_compute in H. discriminate H.
  - intros H.
    specialize (H 0.1%float 1.0%float (Some "cm") (Some "mm") Hcm Hmm eq_refl).
    vm_compute in H. discriminate H.
Qed.
